(** * cdk-serverless-deploy-role: the bootstrap stack of [bin/app.ts]

    A shallow embedding of the one construct of the repository, the
    [ServiceDeployBootstrap] stack, of the string operations its
    constructor relies on, and of the checks of the base constructor it
    starts with.  JavaScript strings are modelled by [string]
    (stack names, account ids and regions are ASCII), arrays by [list],
    the CDK constructs by records, and the calls that mutate a construct
    ([addToPolicy], [addToGroup]) by functions returning the updated
    record, threaded through the constructor in source order. *)

From Stdlib Require Import String Ascii List Bool Arith Lia.
Import ListNotations.
Open Scope list_scope.
Open Scope string_scope.

(** ** JavaScript string primitives *)

Module JsString.

(** [s.startsWith(searchString)] *)
Fixpoint startsWith (s searchString : string) {struct searchString}
    : bool :=
  match searchString, s with
  | EmptyString, _ => true
  | String _ _, EmptyString => false
  | String a p, String b s' => Ascii.eqb a b && startsWith s' p
  end.

(** [s.indexOf(searchString)], [None] standing for [-1]: the least
    position at which [searchString] occurs in [s]. *)
Fixpoint indexOf (s searchString : string) : option nat :=
  if startsWith s searchString then Some 0
  else match s with
       | EmptyString => None
       | String _ s' => option_map S (indexOf s' searchString)
       end.

(** [s.includes(searchString)] *)
Definition includes (s searchString : string) : bool :=
  match indexOf s searchString with Some _ => true | None => false end.

(** [s.slice(0, n)] and [s.slice(n)] for [0 <= n]. *)
Fixpoint take (n : nat) (s : string) : string :=
  match n, s with
  | S n', String c s' => String c (take n' s')
  | _, _ => EmptyString
  end.

Fixpoint drop (n : nat) (s : string) : string :=
  match n, s with
  | S n', String _ s' => drop n' s'
  | _, _ => s
  end.

(** [s.endsWith(searchString)] *)
Definition endsWith (s searchString : string) : bool :=
  Nat.leb (String.length searchString) (String.length s)
  && String.eqb (drop (String.length s - String.length searchString) s)
                searchString.

(** [s.replace(searchValue, replaceValue)] for a string [searchValue]
    and a [replaceValue] without [$] patterns: only the first
    occurrence is replaced, and [s] is returned unchanged when there is
    none. *)
Definition replace (s searchValue replaceValue : string) : string :=
  match indexOf s searchValue with
  | None => s
  | Some pos =>
      take pos s ++ replaceValue ++ drop (pos + String.length searchValue) s
  end.

(** A template literal [`${v}`] of a value that may be [undefined]. *)
Definition interpolate (v : option string) : string :=
  match v with
  | Some s => s
  | None => "undefined"
  end.

(** No proper suffix of [p] is a prefix of [p]: two occurrences of [p]
    never overlap. *)
Definition border_free (p : string) : bool :=
  forallb (fun k => negb (startsWith p (drop k p)))
          (seq 1 (String.length p - 1)).

End JsString.

Import JsString.

(** ** IAM and CloudFormation data *)

Inductive Effect := ALLOW | DENY.

(** A principal of a trust policy. *)
Inductive Principal :=
| ServicePrincipal (service : string).

(** What a string handed to CloudFormation may be: a literal, or an
    attribute of a construct of the stack, known only at deployment. *)
Inductive Value :=
| Literal (s : string)
| Attr (constructId attribute : string).

Record PolicyStatement := mkPolicyStatement {
  effect : Effect;
  resources : list Value;
  actions : list string
}.

Record Role := mkRole {
  roleId : string;
  assumedBy : Principal;
  rolePolicy : list PolicyStatement
}.

Record Group := mkGroup {
  groupId : string;
  groupPolicy : list PolicyStatement
}.

Record User := mkUser {
  userId : string;
  userNameProp : string;
  userGroups : list string
}.

Record CfnOutput := mkCfnOutput {
  outputId : string;
  outputValue : Value;
  outputDescription : string;
  exportName : option string
}.

Record StringParameter := mkStringParameter {
  parameterId : string;
  parameterName : string;
  parameterDescription : string;
  stringValue : string
}.

(** The constructs a stack holds once its constructor has run. *)
Record Template := mkTemplate {
  stackDescription : option string;
  serviceRole : Role;
  deployUser : User;
  deployGroup : Group;
  outputs : list CfnOutput;
  parameters : list StringParameter
}.

(** [new Role(this, id, { assumedBy })]: no statement attached yet. *)
Definition newRole (id : string) (p : Principal) : Role :=
  mkRole id p [].

(** [role.addToPolicy(statement)]: statements accumulate in call order. *)
Definition Role_addToPolicy (r : Role) (st : PolicyStatement) : Role :=
  mkRole (roleId r) (assumedBy r) (rolePolicy r ++ [st]).

(** [role.roleArn]: the [Arn] attribute of the role resource. *)
Definition roleArn (r : Role) : Value := Attr (roleId r) "Arn".

(** The principals of the role's trust relationship. *)
Definition trustPrincipals (r : Role) : list Principal := [assumedBy r].

Definition newGroup (id : string) : Group := mkGroup id [].

Definition Group_addToPolicy (g : Group) (st : PolicyStatement) : Group :=
  mkGroup (groupId g) (groupPolicy g ++ [st]).

Definition newUser (id name : string) : User := mkUser id name [].

(** [user.addToGroup(group)] *)
Definition User_addToGroup (u : User) (g : Group) : User :=
  mkUser (userId u) (userNameProp u) (userGroups u ++ [groupId g]).

(** [user.userName]: the name attribute of the user resource. *)
Definition userName (u : User) : Value := Attr (userId u) "UserName".

(** ** The stack *)

Definition STACK_SUFFIX : string := "-deploy-bootstrap".

(** The version used for auditing which role a project uses. *)
Definition version : string := "1".

(** The service name the constructor derives from the stack's name. *)
Definition serviceNameOf (stackName : string) : string :=
  replace stackName STACK_SUFFIX "".

(** The resource lists of the constructor: each holds one ARN pattern,
    interpolated from the service name, the account and the region. *)
Section Resources.

Variables serviceName accountId region : string.

Definition cloudFormationResources : list string :=
  ["arn:aws:cloudformation:" ++ region ++ ":" ++ accountId
     ++ ":stack/" ++ serviceName ++ "*"].

Definition s3BucketResources : list string :=
  ["arn:aws:s3:::" ++ serviceName ++ "*"].

Definition s3ObjectResources : list string :=
  ["arn:aws:s3:::" ++ serviceName ++ "*/*"].

Definition cloudWatchResources : list string :=
  ["arn:aws:logs:" ++ region ++ ":" ++ accountId
     ++ ":log-group:/aws/lambda/" ++ serviceName ++ "*"].

Definition lambdaResources : list string :=
  ["arn:aws:lambda:" ++ region ++ ":" ++ accountId
     ++ ":function:" ++ serviceName ++ "*"].

Definition stepFunctionResources : list string :=
  ["arn:aws:states:" ++ region ++ ":" ++ accountId
     ++ ":stateMachine:" ++ serviceName ++ "*"].

Definition iamResources : list string :=
  ["arn:aws:iam::" ++ accountId ++ ":role/" ++ serviceName ++ "*"].

(** Declared by the constructor and used by no statement. *)
Definition cloudFormationStackResource : string := "".

Definition s3DeploymentResources : list string :=
  ["arn:aws:s3:::" ++ serviceName ++ "*deploymentbucket*"].

(** The path of the parameter that records the version. *)
Definition versionParameterName : string :=
  "/serverless-deploy-bootstrap/" ++ serviceName ++ "/version".

End Resources.

(** The statements the constructor builds, named after the comments that
    introduce them in the source. *)
Definition allow (rs : list string) (acts : list string) : PolicyStatement :=
  mkPolicyStatement ALLOW (map Literal rs) acts.

Definition s3ObjectActions : list string :=
  ["s3:PutObject"; "s3:DeleteObject"].

Definition s3BucketActions : list string := ["s3:*"].

Definition cloudWatchActions : list string :=
  ["logs:CreateLogGroup"; "logs:DescribeLogGroup"; "logs:DeleteLogGroup";
   "logs:CreateLogStream"; "logs:DescribeLogStreams"; "logs:DeleteLogStream";
   "logs:FilterLogEvents"].

Definition lambdaActions : list string :=
  ["lambda:GetFunction"; "lambda:CreateFunction"; "lambda:DeleteFunction";
   "lambda:UpdateFunctionConfiguration"; "lambda:UpdateFunctionCode";
   "lambda:ListVersionsByFunction"; "lambda:PublishVersion";
   "lambda:CreateAlias"; "lambda:DeleteAlias"; "lambda:UpdateAlias";
   "lambda:GetFunctionConfiguration"; "lambda:AddPermission";
   "lambda:RemovePermission"; "lambda:InvokeFunction"].

Definition iamActions : list string :=
  ["iam:PassRole"; "iam:CreateRole"; "iam:GetRole"; "iam:DeleteRole";
   "iam:GetRolePolicy"; "iam:DeleteRolePolicy"; "iam:PutRolePolicy"].

Definition dynamoDbActions : list string :=
  ["dynamodb:CreateTable"; "dynamodb:UpdateTable"; "dynamodb:DeleteTable"].

Definition stepFunctionActions : list string :=
  ["states:CreateStateMachine"; "states:DeleteStateMachine";
   "states:DescribeStateMachine"; "states:TagResource"].

Definition validateTemplateActions : list string :=
  ["cloudformation:ValidateTemplate"].

Definition cloudFormationActions : list string :=
  ["cloudformation:CreateStack"; "cloudformation:DescribeStacks";
   "cloudformation:DeleteStack"; "cloudformation:DescribeStackEvents";
   "cloudformation:UpdateStack"; "cloudformation:ListStackResources";
   "cloudformation:DescribeStackResource"].

Definition getFunctionActions : list string := ["lambda:GetFunction"].

Definition passRoleActions : list string := ["iam:PassRole"].

(** The constructor of [ServiceDeployBootstrap] past its call of the
    base constructor, for a stack named [stackName] in the account
    [accountId] and the region [region]. *)
Definition ServiceDeployBootstrap
    (stackName : string) (description : option string)
    (accountId region : string) : Template :=
  let serviceName := serviceNameOf stackName in

  let serviceRole :=
    newRole ("ServiceRole-v" ++ version)
            (ServicePrincipal "cloudformation.amazonaws.com") in
  (* S3 object policy *)
  let serviceRole := Role_addToPolicy serviceRole
    (allow (s3ObjectResources serviceName) s3ObjectActions) in
  (* S3 bucket policy *)
  let serviceRole := Role_addToPolicy serviceRole
    (allow (s3BucketResources serviceName) s3BucketActions) in
  (* CloudWatch policy *)
  let serviceRole := Role_addToPolicy serviceRole
    (allow (cloudWatchResources serviceName accountId region)
           cloudWatchActions) in
  (* Lambda policy *)
  let serviceRole := Role_addToPolicy serviceRole
    (allow (lambdaResources serviceName accountId region) lambdaActions) in
  (* IAM policy *)
  let serviceRole := Role_addToPolicy serviceRole
    (allow (iamResources serviceName accountId) iamActions) in
  (* DynamoDB policy *)
  let serviceRole := Role_addToPolicy serviceRole
    (allow (stepFunctionResources serviceName accountId region)
           dynamoDbActions) in
  (* StepFunctions policy *)
  let serviceRole := Role_addToPolicy serviceRole
    (allow (stepFunctionResources serviceName accountId region)
           stepFunctionActions) in

  let deployUser := newUser "DeployUser" (serviceName ++ "-deployer") in

  let deployGroup := newGroup (serviceName ++ "-deployers") in
  let deployGroup := Group_addToPolicy deployGroup
    (allow ["*"] validateTemplateActions) in
  let deployGroup := Group_addToPolicy deployGroup
    (allow (cloudFormationResources serviceName accountId region)
           cloudFormationActions) in
  (* Serverless uses this to skip functions which have not changed *)
  let deployGroup := Group_addToPolicy deployGroup
    (allow (lambdaResources serviceName accountId region)
           getFunctionActions) in
  let deployGroup := Group_addToPolicy deployGroup
    (mkPolicyStatement ALLOW [roleArn serviceRole] passRoleActions) in
  (* Deployer user needs to be able to manage the deployment bucket *)
  let deployGroup := Group_addToPolicy deployGroup
    (allow (s3DeploymentResources serviceName) s3BucketActions) in

  let deployUser := User_addToGroup deployUser deployGroup in

  let outputs :=
    [ mkCfnOutput "DeployUserName" (userName deployUser)
        "PublisherUser" None;
      mkCfnOutput "DeployRoleArn" (roleArn serviceRole)
        "The ARN of the CloudFormation service role" (Some "DeployRoleArn");
      mkCfnOutput "BootstrapVersion" (Literal version)
        "The version of the bootstrap resources that are currently provisioned in this stack"
        (Some "BootstrapVersion") ] in

  let parameterName := versionParameterName serviceName in
  let parameters :=
    [ mkStringParameter "ServerlessDeployBootstrapVersion" parameterName
        "The version of the serverless-deploy-bootrap resources" version ] in

  mkTemplate description serviceRole deployUser deployGroup
             outputs parameters.

(** ** The [Stack] base class

    [ServiceDeployBootstrap] extends the CDK's [Stack], and its
    constructor starts with [super(scope, id, props)].  The library is
    not among the sources of the repository; its part in the program is
    taken from its behaviour.  A construct id has every [/] rewritten to
    [--]; a stack placed directly under the app is named by that id; a
    description of more than 512 characters, a name of more than 128, or
    a name that does not match [/^[A-Za-z][A-Za-z0-9-]*$/] makes the
    constructor throw. *)

(** [id.replace(/\//g, '--')] *)
Fixpoint sanitizeId (id : string) : string :=
  match id with
  | EmptyString => EmptyString
  | String c rest =>
      if Ascii.eqb c "/" then String "-" (String "-" (sanitizeId rest))
      else String c (sanitizeId rest)
  end.

(** [[A-Za-z]] *)
Definition isLetter (c : ascii) : bool :=
  let n := nat_of_ascii c in
  (Nat.leb 65 n && Nat.leb n 90) || (Nat.leb 97 n && Nat.leb n 122).

(** [[A-Za-z0-9-]] *)
Definition isNameChar (c : ascii) : bool :=
  let n := nat_of_ascii c in
  isLetter c || (Nat.leb 48 n && Nat.leb n 57) || Ascii.eqb c "-".

Fixpoint allNameChars (s : string) : bool :=
  match s with
  | EmptyString => true
  | String c rest => isNameChar c && allNameChars rest
  end.

(** [VALID_STACK_NAME_REGEX.test(name)], the expression being
    [/^[A-Za-z][A-Za-z0-9-]*$/]. *)
Definition validStackName (name : string) : bool :=
  match name with
  | EmptyString => false
  | String c rest => isLetter c && allNameChars rest
  end.

Definition descriptionTooLong (description : option string) : bool :=
  match description with
  | Some text => Nat.ltb 512 (String.length text)
  | None => false
  end.

(** What [super(scope, id, props)] comes to: the name of the stack, or
    the error thrown. *)
Inductive SuperResult :=
| StackNamed (stackName : string)
| Throws (message : string).

Definition Stack_super (id : string) (description : option string)
    : SuperResult :=
  let stackName := sanitizeId id in
  if descriptionTooLong description then
    Throws ("Stack description must be <= 1024 bytes. Received description: '"
              ++ interpolate description ++ "'")
  else if Nat.ltb 128 (String.length stackName) then
    Throws ("Stack name must be <= 128 characters. Stack name: '"
              ++ stackName ++ "'")
  else if validStackName stackName then StackNamed stackName
  else
    Throws ("Stack name must match the regular expression: /^[A-Za-z][A-Za-z0-9-]*$/, got '"
              ++ stackName ++ "'").

(** What evaluating [new ServiceDeployBootstrap(...)] comes to: the stack
    with its constructs, or an error raised on the way. *)
Inductive Outcome :=
| Emitted (t : Template)
| InputError (message : string).

(** [new ServiceDeployBootstrap(app, id, { description })]: the base
    constructor runs first and may throw; the rest of the constructor
    has no [throw] of its own and checks the stack name for nothing, its
    suffix included. *)
Definition construct (id : string) (description : option string)
    (accountId region : string) : Outcome :=
  match Stack_super id description with
  | Throws message => InputError message
  | StackNamed stackName =>
      Emitted (ServiceDeployBootstrap stackName description accountId region)
  end.

(** The description the program gives its stack. *)
Definition appDescription : option string :=
  Some "This stack includes IAM resources needed to deploy Serverless apps into this environment".

(** The program: one stack, whose id is made of the environment's
    [SERVICE_NAME] and the suffix. *)
Definition app (SERVICE_NAME : option string) (accountId region : string)
    : Outcome :=
  construct (interpolate SERVICE_NAME ++ STACK_SUFFIX)
    appDescription accountId region.

(** Looking an output up by its id. *)
Definition findOutput (id : string) (t : Template) : option CfnOutput :=
  find (fun o => String.eqb (outputId o) id) (outputs t).

(** Every statement of the template, the role's first. *)
Definition allStatements (t : Template) : list PolicyStatement :=
  rolePolicy (serviceRole t) ++ groupPolicy (deployGroup t).

(** ** Facts about the string primitives *)

Module StringFacts.

Lemma append_nil_r (s : string) : s ++ "" = s.
Proof. induction s as [|c s IH]; simpl; [reflexivity | now rewrite IH]. Qed.

Lemma append_assoc (a b c : string) : (a ++ b) ++ c = a ++ (b ++ c).
Proof. induction a as [|x a IH]; simpl; [reflexivity | now rewrite IH]. Qed.

Lemma length_append (a b : string) :
  String.length (a ++ b) = String.length a + String.length b.
Proof. induction a as [|x a IH]; simpl; [reflexivity | now rewrite IH]. Qed.

Lemma take_append (p q : string) : take (String.length p) (p ++ q) = p.
Proof.
  induction p as [|c p IH]; simpl.
  - now destruct q.
  - now rewrite IH.
Qed.

Lemma drop_append (p q : string) (n : nat) :
  drop (String.length p + n) (p ++ q) = drop n q.
Proof. induction p as [|c p IH]; simpl; [reflexivity | exact IH]. Qed.

Lemma drop_append_exact (p q : string) : drop (String.length p) (p ++ q) = q.
Proof. induction p as [|c p IH]; simpl; [now destruct q | exact IH]. Qed.

Lemma drop_length (s : string) : drop (String.length s) s = "".
Proof. induction s as [|c s IH]; simpl; [reflexivity | exact IH]. Qed.

Lemma take_drop (n : nat) (s : string) : take n s ++ drop n s = s.
Proof.
  revert s; induction n as [|n IH]; intros [|c s]; simpl; try reflexivity.
  now rewrite IH.
Qed.

(** [startsWith] decides being a prefix. *)
Lemma startsWith_append (p q : string) : startsWith (p ++ q) p = true.
Proof.
  induction p as [|c p IH]; simpl.
  - now destruct q.
  - now rewrite Ascii.eqb_refl, IH.
Qed.

Lemma startsWith_inv (s p : string) :
  startsWith s p = true -> exists q, s = p ++ q.
Proof.
  revert s; induction p as [|c p IH]; intros s H.
  - now exists s.
  - destruct s as [|b s]; simpl in H; [discriminate|].
    apply andb_true_iff in H as [Hc Hs].
    apply Ascii.eqb_eq in Hc; subst b.
    destruct (IH _ Hs) as [q ->]. now exists q.
Qed.

(** A pattern no longer than [p] is a prefix of [p ++ q] only if it is
    one of [p]. *)
Lemma startsWith_append_long (p q pat : string) :
  String.length pat <= String.length p ->
  startsWith (p ++ q) pat = startsWith p pat.
Proof.
  revert p; induction pat as [|c pat IH]; intros p Hlen.
  - now destruct p, q.
  - destruct p as [|b p]; simpl in *; [lia|].
    rewrite IH by lia. reflexivity.
Qed.

(** A pattern longer than [p] that is a prefix of [p ++ q] goes on
    into [q]. *)
Lemma startsWith_append_short (p q pat : string) :
  String.length p <= String.length pat ->
  startsWith (p ++ q) pat = true ->
  startsWith q (drop (String.length p) pat) = true.
Proof.
  revert pat; induction p as [|b p IH]; intros pat Hlen H.
  - now destruct pat.
  - destruct pat as [|c pat]; simpl in *; [lia|].
    apply andb_true_iff in H as [_ H]. apply IH; [lia | exact H].
Qed.

(** [endsWith] decides being a suffix. *)
Lemma endsWith_append (p x : string) : endsWith (p ++ x) x = true.
Proof.
  unfold endsWith. rewrite length_append.
  apply andb_true_iff; split.
  - apply Nat.leb_le; lia.
  - replace (String.length p + String.length x - String.length x)
      with (String.length p + 0) by lia.
    rewrite drop_append. simpl. apply String.eqb_refl.
Qed.

Lemma endsWith_inv (s x : string) :
  endsWith s x = true -> exists p, s = p ++ x.
Proof.
  unfold endsWith; intros H.
  apply andb_true_iff in H as [_ H]. apply String.eqb_eq in H.
  exists (take (String.length s - String.length x) s).
  pose proof (take_drop (String.length s - String.length x) s) as E.
  rewrite H in E. now symmetry.
Qed.

Lemma indexOf_nil (pat : string) :
  indexOf "" pat = if startsWith "" pat then Some 0 else None.
Proof. reflexivity. Qed.

Lemma indexOf_cons (c : ascii) (s pat : string) :
  indexOf (String c s) pat =
  if startsWith (String c s) pat then Some 0
  else option_map S (indexOf s pat).
Proof. reflexivity. Qed.

Lemma startsWith_nil (pat : string) :
  startsWith "" pat = true -> pat = "".
Proof. destruct pat; [reflexivity | discriminate]. Qed.

(** What [indexOf] finds is an occurrence, and the leftmost one. *)
Lemma indexOf_occurrence (s pat : string) (i : nat) :
  indexOf s pat = Some i ->
  s = take i s ++ pat ++ drop (i + String.length pat) s.
Proof.
  revert i; induction s as [|c s IH]; intros i.
  - rewrite indexOf_nil.
    destruct (startsWith "" pat) eqn:E; [|discriminate].
    intros [= <-]. now rewrite (startsWith_nil _ E).
  - rewrite indexOf_cons.
    destruct (startsWith (String c s) pat) eqn:E.
    + intros [= <-]. apply startsWith_inv in E as [q E].
      rewrite E. change (0 + String.length pat) with (String.length pat).
      now rewrite drop_append_exact.
    + destruct (indexOf s pat) as [j|]; [|discriminate].
      intros [= <-]. simpl. f_equal. now apply IH.
Qed.

Lemma indexOf_leftmost (s pat : string) (i j : nat) :
  indexOf s pat = Some i -> j < i -> startsWith (drop j s) pat = false.
Proof.
  revert i j; induction s as [|c s IH]; intros i j.
  - rewrite indexOf_nil.
    destruct (startsWith "" pat); [|discriminate]. intros [= <-]; lia.
  - rewrite indexOf_cons.
    destruct (startsWith (String c s) pat) eqn:E.
    + intros [= <-]; lia.
    + destruct (indexOf s pat) as [k|]; [|discriminate].
      intros [= <-] Hj. destruct j as [|j]; [exact E|].
      simpl. apply (IH k); [reflexivity | lia].
Qed.

Lemma indexOf_append_l (x s pat : string) :
  (exists i, indexOf s pat = Some i) ->
  exists i, indexOf (x ++ s) pat = Some i.
Proof.
  intros H; induction x as [|c x IH]; [exact H|].
  change (String c x ++ s) with (String c (x ++ s)).
  rewrite indexOf_cons.
  destruct (startsWith _ pat); [now exists 0|].
  destruct IH as [i ->]. now exists (S i).
Qed.

Lemma indexOf_here (n post : string) : indexOf (n ++ post) n = Some 0.
Proof.
  pose proof (startsWith_append n post) as E.
  destruct (n ++ post) as [|c s].
  - now rewrite indexOf_nil, E.
  - now rewrite indexOf_cons, E.
Qed.

Lemma includes_here (n post : string) : includes (n ++ post) n = true.
Proof. unfold includes. now rewrite indexOf_here. Qed.

Lemma includes_append_l (x s n : string) :
  includes s n = true -> includes (x ++ s) n = true.
Proof.
  unfold includes; intros H.
  destruct (indexOf_append_l x s n) as [i ->]; [|reflexivity].
  destruct (indexOf s n) as [i|]; [now exists i | discriminate].
Qed.

(** Without the pattern in it, a string is left as it is. *)
Lemma replace_absent (s pat rep : string) :
  includes s pat = false -> replace s pat rep = s.
Proof.
  unfold includes, replace.
  destruct (indexOf s pat); [discriminate | reflexivity].
Qed.

(** Appending a border-free pattern to a string without it puts the
    first occurrence at the end. *)
Lemma indexOf_append_border_free (p pat : string) :
  border_free pat = true ->
  indexOf p pat = None ->
  indexOf (p ++ pat) pat = Some (String.length p).
Proof.
  intros Hb; induction p as [|c p IH]; intros Hp.
  - pose proof (indexOf_here pat "") as H.
    rewrite append_nil_r in H. exact H.
  - rewrite indexOf_cons in Hp.
    destruct (startsWith (String c p) pat) eqn:E; [discriminate|].
    destruct (indexOf p pat) eqn:Ei; [discriminate|].
    change (String c p ++ pat) with (String c (p ++ pat)).
    rewrite indexOf_cons.
    change (String c (p ++ pat)) with (String c p ++ pat).
    destruct (startsWith (String c p ++ pat) pat) eqn:E'.
    + exfalso.
      destruct (le_lt_dec (String.length pat) (String.length (String c p)))
        as [Hle|Hlt].
      * rewrite startsWith_append_long in E' by exact Hle. congruence.
      * apply startsWith_append_short in E'; [|lia].
        unfold border_free in Hb. rewrite forallb_forall in Hb.
        specialize (Hb (String.length (String c p))).
        rewrite E' in Hb. simpl in Hb.
        assert (false = true); [|discriminate].
        apply Hb. apply in_seq. simpl in *. lia.
    + rewrite IH by reflexivity. reflexivity.
Qed.

Lemma replace_append_border_free (p pat : string) :
  border_free pat = true ->
  includes p pat = false ->
  replace (p ++ pat) pat "" = p.
Proof.
  intros Hb Hp. unfold replace.
  rewrite indexOf_append_border_free; trivial.
  - rewrite take_append, drop_append, drop_length.
    simpl. apply append_nil_r.
  - unfold includes in Hp. now destruct (indexOf p pat).
Qed.

End StringFacts.

Import StringFacts.

(** ** The derived service name *)

Lemma STACK_SUFFIX_border_free : border_free STACK_SUFFIX = true.
Proof. reflexivity. Qed.

(** A service name that does not itself contain the suffix is recovered
    from the stack name the program builds for it. *)
Lemma serviceNameOf_append_suffix (name : string) :
  includes name STACK_SUFFIX = false ->
  serviceNameOf (name ++ STACK_SUFFIX) = name.
Proof.
  intros H. unfold serviceNameOf.
  now apply replace_append_border_free; [apply STACK_SUFFIX_border_free|].
Qed.

(** Every string is the service name of some stack. *)
Lemma serviceNameOf_prepend_suffix (name : string) :
  serviceNameOf (STACK_SUFFIX ++ name) = name.
Proof.
  unfold serviceNameOf, replace.
  rewrite indexOf_here.
  change (0 + String.length STACK_SUFFIX) with (String.length STACK_SUFFIX).
  now rewrite drop_append_exact.
Qed.

(** A stack name without the suffix is its own service name. *)
Lemma serviceNameOf_absent (stackName : string) :
  includes stackName STACK_SUFFIX = false ->
  serviceNameOf stackName = stackName.
Proof. apply replace_absent. Qed.

(** A stack name that ends with the suffix, and has it nowhere before,
    loses exactly that trailing suffix. *)
Lemma serviceNameOf_trailing (stackName : string) :
  let name :=
    take (String.length stackName - String.length STACK_SUFFIX) stackName in
  endsWith stackName STACK_SUFFIX = true ->
  includes name STACK_SUFFIX = false ->
  stackName = name ++ STACK_SUFFIX /\ serviceNameOf stackName = name.
Proof.
  intros name Hend Hinc.
  destruct (endsWith_inv _ _ Hend) as [p Hp].
  assert (Hname : name = p).
  { subst name. rewrite Hp, length_append.
    replace (String.length p + String.length STACK_SUFFIX
             - String.length STACK_SUFFIX) with (String.length p) by lia.
    apply take_append. }
  rewrite Hname in *. split; [exact Hp|].
  rewrite Hp. now apply serviceNameOf_append_suffix.
Qed.

(** ** The statements of the template, in the order they are attached *)

Lemma rolePolicy_eq (stackName : string) (d : option string)
    (accountId region : string) :
  let n := serviceNameOf stackName in
  rolePolicy (serviceRole (ServiceDeployBootstrap stackName d accountId region))
  = [ allow (s3ObjectResources n) s3ObjectActions;
      allow (s3BucketResources n) s3BucketActions;
      allow (cloudWatchResources n accountId region) cloudWatchActions;
      allow (lambdaResources n accountId region) lambdaActions;
      allow (iamResources n accountId) iamActions;
      allow (stepFunctionResources n accountId region) dynamoDbActions;
      allow (stepFunctionResources n accountId region) stepFunctionActions ].
Proof. reflexivity. Qed.

Lemma groupPolicy_eq (stackName : string) (d : option string)
    (accountId region : string) :
  let n := serviceNameOf stackName in
  groupPolicy (deployGroup (ServiceDeployBootstrap stackName d accountId region))
  = [ allow ["*"] validateTemplateActions;
      allow (cloudFormationResources n accountId region)
            cloudFormationActions;
      allow (lambdaResources n accountId region) getFunctionActions;
      mkPolicyStatement ALLOW [Attr "ServiceRole-v1" "Arn"] passRoleActions;
      allow (s3DeploymentResources n) s3BucketActions ].
Proof. reflexivity. Qed.

(** Closes a goal [includes p n = true] for a pattern [p] built by
    appending to fixed and interpolated parts a part that starts with
    [n]. *)
Lemma includes_String (c : ascii) (s n : string) :
  includes s n = true -> includes (String c s) n = true.
Proof. apply (includes_append_l (String c "")). Qed.

Ltac includes_service_name :=
  repeat first
    [ apply includes_here
    | apply includes_append_l
    | apply includes_String ].

(** ** The base constructor *)

Lemma Stack_super_inv (id : string) (d : option string) (stackName : string) :
  Stack_super id d = StackNamed stackName ->
  stackName = sanitizeId id
  /\ validStackName stackName = true
  /\ String.length stackName <= 128
  /\ descriptionTooLong d = false.
Proof.
  unfold Stack_super. destruct (descriptionTooLong d); [discriminate|].
  destruct (Nat.ltb 128 (String.length (sanitizeId id))) eqn:L;
    [discriminate|].
  destruct (validStackName (sanitizeId id)) eqn:V; [|discriminate].
  intros [= <-]. apply Nat.ltb_ge in L. auto.
Qed.

(** A stack the base constructor accepts is built, under the name the
    base constructor gave it. *)
Lemma construct_accepted (id : string) (d : option string)
    (accountId region stackName : string) :
  Stack_super id d = StackNamed stackName ->
  construct id d accountId region
  = Emitted (ServiceDeployBootstrap stackName d accountId region).
Proof. intros H. unfold construct. now rewrite H. Qed.

(** A template is emitted only for a stack the base constructor
    accepts. *)
Lemma construct_Emitted_inv (id : string) (d : option string)
    (accountId region : string) (t : Template) :
  construct id d accountId region = Emitted t ->
  exists stackName,
    Stack_super id d = StackNamed stackName
    /\ t = ServiceDeployBootstrap stackName d accountId region.
Proof.
  unfold construct. destruct (Stack_super id d) as [stackName|message].
  - intros [= <-]. now exists stackName.
  - discriminate.
Qed.

Lemma append_eq_empty (a b : string) : a ++ b = "" -> a = "" /\ b = "".
Proof. destruct a; [now split | discriminate]. Qed.

(** Only the empty string and the suffix itself have the empty service
    name. *)
Lemma serviceNameOf_empty_inv (stackName : string) :
  serviceNameOf stackName = "" ->
  stackName = "" \/ stackName = STACK_SUFFIX.
Proof.
  unfold serviceNameOf, replace.
  destruct (indexOf stackName STACK_SUFFIX) as [i|] eqn:E.
  - intros H. right. apply indexOf_occurrence in E.
    apply append_eq_empty in H as [H1 H2]. cbn [append] in H2.
    rewrite H1, H2 in E. rewrite E. reflexivity.
  - intros ->. now left.
Qed.

(** The base constructor accepts neither of them. *)
Lemma accepted_serviceName_not_empty
    (id : string) (d : option string) (stackName : string) :
  Stack_super id d = StackNamed stackName ->
  serviceNameOf stackName <> "".
Proof.
  intros H E. apply Stack_super_inv in H as [_ [V _]].
  apply serviceNameOf_empty_inv in E as [-> | ->]; discriminate V.
Qed.

(** ** Properties of the stack *)

(** C1. Whatever the stack name, the account and the region, the deploy
    group has one pass-role statement, the fourth it is given; the
    resource list of that statement is the one-element list holding the
    ARN of the service role built by the same constructor, and none of
    its resources is a literal pattern, so none is the wildcard. *)
Theorem deployGroup_passRole_resources
    (stackName : string) (d : option string) (accountId region : string) :
  let t := ServiceDeployBootstrap stackName d accountId region in
  exists st,
    nth_error (groupPolicy (deployGroup t)) 3 = Some st
    /\ effect st = ALLOW
    /\ actions st = ["iam:PassRole"]
    /\ resources st = [roleArn (serviceRole t)]
    /\ (forall x, In x (resources st) -> forall p, x <> Literal p)
    /\ ~ In (Literal "*") (resources st)
    /\ (forall st', In st' (groupPolicy (deployGroup t)) ->
                    In "iam:PassRole" (actions st') -> st' = st).
Proof.
  intros t.
  exists (mkPolicyStatement ALLOW [Attr "ServiceRole-v1" "Arn"] passRoleActions).
  repeat split.
  - intros x [<- | []] p; discriminate.
  - intros [H | []]; discriminate.
  - intros st' Hin Hact. subst t. rewrite groupPolicy_eq in Hin.
    destruct Hin as [<- | [<- | [<- | [<- | [<- | []]]]]];
      try reflexivity;
      simpl in Hact; repeat (destruct Hact as [Hact | Hact]; try discriminate);
      contradiction.
Qed.

(** C4. Whatever the input, the service role is given exactly seven
    statements, in this order: object writes and deletes on the S3
    object pattern, every S3 action on the bucket pattern, the log
    actions, the Lambda actions, the IAM role actions with pass-role,
    the DynamoDB table actions, the state-machine actions.  The sixth,
    the table statement, has the state-machine resource list of the
    seventh, and not a DynamoDB pattern. *)
Theorem serviceRole_seven_statements
    (stackName : string) (d : option string) (accountId region : string) :
  let n := serviceNameOf stackName in
  let t := ServiceDeployBootstrap stackName d accountId region in
  let policy := rolePolicy (serviceRole t) in
  List.length policy = 7
  /\ map actions policy =
       [ ["s3:PutObject"; "s3:DeleteObject"];
         ["s3:*"];
         ["logs:CreateLogGroup"; "logs:DescribeLogGroup";
          "logs:DeleteLogGroup"; "logs:CreateLogStream";
          "logs:DescribeLogStreams"; "logs:DeleteLogStream";
          "logs:FilterLogEvents"];
         ["lambda:GetFunction"; "lambda:CreateFunction";
          "lambda:DeleteFunction"; "lambda:UpdateFunctionConfiguration";
          "lambda:UpdateFunctionCode"; "lambda:ListVersionsByFunction";
          "lambda:PublishVersion"; "lambda:CreateAlias";
          "lambda:DeleteAlias"; "lambda:UpdateAlias";
          "lambda:GetFunctionConfiguration"; "lambda:AddPermission";
          "lambda:RemovePermission"; "lambda:InvokeFunction"];
         ["iam:PassRole"; "iam:CreateRole"; "iam:GetRole"; "iam:DeleteRole";
          "iam:GetRolePolicy"; "iam:DeleteRolePolicy"; "iam:PutRolePolicy"];
         ["dynamodb:CreateTable"; "dynamodb:UpdateTable";
          "dynamodb:DeleteTable"];
         ["states:CreateStateMachine"; "states:DeleteStateMachine";
          "states:DescribeStateMachine"; "states:TagResource"] ]
  /\ map resources policy =
       [ [Literal ("arn:aws:s3:::" ++ n ++ "*/*")];
         [Literal ("arn:aws:s3:::" ++ n ++ "*")];
         [Literal ("arn:aws:logs:" ++ region ++ ":" ++ accountId
                     ++ ":log-group:/aws/lambda/" ++ n ++ "*")];
         [Literal ("arn:aws:lambda:" ++ region ++ ":" ++ accountId
                     ++ ":function:" ++ n ++ "*")];
         [Literal ("arn:aws:iam::" ++ accountId ++ ":role/" ++ n ++ "*")];
         [Literal ("arn:aws:states:" ++ region ++ ":" ++ accountId
                     ++ ":stateMachine:" ++ n ++ "*")];
         [Literal ("arn:aws:states:" ++ region ++ ":" ++ accountId
                     ++ ":stateMachine:" ++ n ++ "*")] ]
  /\ map resources policy =
       [ map Literal (s3ObjectResources n);
         map Literal (s3BucketResources n);
         map Literal (cloudWatchResources n accountId region);
         map Literal (lambdaResources n accountId region);
         map Literal (iamResources n accountId);
         map Literal (stepFunctionResources n accountId region);
         map Literal (stepFunctionResources n accountId region) ]
  /\ Forall (fun st => effect st = ALLOW) policy
  /\ (exists st,
        nth_error policy 4 = Some st /\ In "iam:PassRole" (actions st))
  /\ (exists st,
        nth_error policy 5 = Some st
        /\ actions st
           = ["dynamodb:CreateTable"; "dynamodb:UpdateTable";
              "dynamodb:DeleteTable"]
        /\ resources st =
             [Literal ("arn:aws:states:" ++ region ++ ":" ++ accountId
                         ++ ":stateMachine:" ++ n ++ "*")]
        /\ forall p, In (Literal p) (resources st) ->
                     startsWith p "arn:aws:states:" = true
                     /\ startsWith p "arn:aws:dynamodb:" = false).
Proof.
  intros n t policy.
  repeat split.
  - repeat constructor.
  - exists (allow (iamResources n accountId) iamActions).
    split; [reflexivity | now left].
  - exists (allow (stepFunctionResources n accountId region) dynamoDbActions).
    split; [reflexivity|]. split; [reflexivity|]. split; [reflexivity|].
    intros p [H | []]. injection H as <-. split; reflexivity.
Qed.

(** C5. Whatever the input, the trust relationship of the service role
    names one principal and no other: the service principal
    [cloudformation.amazonaws.com]. *)
Theorem serviceRole_trusts_cloudformation_only
    (stackName : string) (d : option string) (accountId region : string) :
  let t := ServiceDeployBootstrap stackName d accountId region in
  trustPrincipals (serviceRole t)
    = [ServicePrincipal "cloudformation.amazonaws.com"]
  /\ forall p, In p (trustPrincipals (serviceRole t)) ->
               p = ServicePrincipal "cloudformation.amazonaws.com".
Proof.
  intros t; split; [reflexivity|].
  intros p [<- | []]; reflexivity.
Qed.

(** C6. For the service name [orders-api], the region [us-east-1] and
    the account [111111111111], the S3 object pattern, the Lambda
    pattern and the path of the version parameter are the three strings
    below; the stack [orders-api-deploy-bootstrap] has that service name
    and carries them. *)
Theorem orders_api_scenario :
  s3ObjectResources "orders-api" = ["arn:aws:s3:::orders-api*/*"]
  /\ lambdaResources "orders-api" "111111111111" "us-east-1"
     = ["arn:aws:lambda:us-east-1:111111111111:function:orders-api*"]
  /\ versionParameterName "orders-api"
     = "/serverless-deploy-bootstrap/orders-api/version"
  /\ serviceNameOf "orders-api-deploy-bootstrap" = "orders-api"
  /\ let t := ServiceDeployBootstrap "orders-api-deploy-bootstrap" None
                "111111111111" "us-east-1" in
     map resources (firstn 1 (rolePolicy (serviceRole t)))
       = [[Literal "arn:aws:s3:::orders-api*/*"]]
     /\ map resources (firstn 1 (skipn 3 (rolePolicy (serviceRole t))))
       = [[Literal
             "arn:aws:lambda:us-east-1:111111111111:function:orders-api*"]]
     /\ map parameterName (parameters t)
       = ["/serverless-deploy-bootstrap/orders-api/version"].
Proof. repeat split. Qed.

(** C9. Whatever the input, with the version literal ["1"] the value of
    the [BootstrapVersion] output and the string stored in the version
    parameter are both the string ["1"]. *)
Theorem bootstrap_version_is_1
    (stackName : string) (d : option string) (accountId region : string) :
  let t := ServiceDeployBootstrap stackName d accountId region in
  version = "1"
  /\ (exists o, findOutput "BootstrapVersion" t = Some o
                /\ outputValue o = Literal "1")
  /\ (exists p, parameters t = [p]
                /\ parameterName p
                   = versionParameterName (serviceNameOf stackName)
                /\ stringValue p = "1").
Proof.
  intros t; split; [reflexivity|]; split.
  - eexists; split; reflexivity.
  - eexists; repeat split.
Qed.

(** C2, as the constructor behaves.  The constructor checks the stack
    name for no suffix.  For a stack the base constructor accepts, whose
    name does not end with [-deploy-bootstrap], it raises no error and
    emits a template; the service name of that template is never empty,
    and when the suffix does not occur in the stack name at all it is
    the unmodified stack name, which names the deploy user and the
    deploy group and scopes the patterns. *)
Theorem construct_without_suffix_emits
    (id : string) (d : option string) (accountId region stackName : string) :
  Stack_super id d = StackNamed stackName ->
  endsWith stackName STACK_SUFFIX = false ->
  exists t,
    construct id d accountId region = Emitted t
    /\ (forall message,
          construct id d accountId region <> InputError message)
    /\ serviceNameOf stackName <> ""
    /\ userNameProp (deployUser t) = serviceNameOf stackName ++ "-deployer"
    /\ (includes stackName STACK_SUFFIX = false ->
          serviceNameOf stackName = stackName
          /\ userNameProp (deployUser t) = stackName ++ "-deployer"
          /\ groupId (deployGroup t) = stackName ++ "-deployers"
          /\ map parameterName (parameters t)
             = [versionParameterName stackName]
          /\ map resources (rolePolicy (serviceRole t))
             = [ map Literal (s3ObjectResources stackName);
                 map Literal (s3BucketResources stackName);
                 map Literal (cloudWatchResources stackName accountId region);
                 map Literal (lambdaResources stackName accountId region);
                 map Literal (iamResources stackName accountId);
                 map Literal
                   (stepFunctionResources stackName accountId region);
                 map Literal
                   (stepFunctionResources stackName accountId region) ]).
Proof.
  intros Hsuper Hend.
  exists (ServiceDeployBootstrap stackName d accountId region).
  rewrite (construct_accepted _ _ accountId region _ Hsuper).
  split; [reflexivity|]. split; [discriminate|]. split; [|split].
  - intros E. apply serviceNameOf_empty_inv in E as [-> | ->].
    + apply Stack_super_inv in Hsuper as [_ [V _]]. discriminate V.
    + discriminate Hend.
  - reflexivity.
  - intros Habs. apply serviceNameOf_absent in Habs.
    split; [exact Habs|].
    unfold ServiceDeployBootstrap. rewrite Habs. repeat split.
Qed.

Lemma construct_without_suffix_emits_witness :
  Stack_super "orders-api" None = StackNamed "orders-api"
  /\ endsWith "orders-api" STACK_SUFFIX = false
  /\ exists t,
       construct "orders-api" None "111111111111" "us-east-1" = Emitted t
       /\ (forall message,
             construct "orders-api" None "111111111111" "us-east-1"
             <> InputError message)
       /\ serviceNameOf "orders-api" <> ""
       /\ userNameProp (deployUser t) = "orders-api-deployer".
Proof.
  split; [reflexivity|]. split; [reflexivity|].
  destruct (construct_without_suffix_emits
              "orders-api" None "111111111111" "us-east-1" "orders-api"
              eq_refl eq_refl) as [t [Ht [Hno [Hne [Hu _]]]]].
  exists t. split; [exact Ht|]. split; [exact Hno|].
  split; [exact Hne | exact Hu].
Defined.

(** C2, as the claim has it, fails: the stack name [orders-api] does not
    end with the suffix, and the constructor raises nothing; it emits a
    template whose service name is the unsuffixed stack name. *)
Lemma construct_without_suffix_no_error :
  endsWith "orders-api" STACK_SUFFIX = false
  /\ (forall message,
        construct "orders-api" None "111111111111" "us-east-1"
        <> InputError message)
  /\ (exists t,
        construct "orders-api" None "111111111111" "us-east-1" = Emitted t
        /\ userNameProp (deployUser t) = "orders-api-deployer"
        /\ map resources (firstn 2 (rolePolicy (serviceRole t)))
           = [ [Literal "arn:aws:s3:::orders-api*/*"];
               [Literal "arn:aws:s3:::orders-api*"] ])
  /\ ~ (forall id d accountId region stackName,
          sanitizeId id = stackName ->
          endsWith stackName STACK_SUFFIX = false ->
          exists message,
            construct id d accountId region = InputError message).
Proof.
  split; [reflexivity|]. split; [discriminate|]. split.
  - eexists; repeat split.
  - intros H.
    destruct (H "orders-api" None "111111111111" "us-east-1" "orders-api"
                eq_refl eq_refl) as [message Hm].
    discriminate Hm.
Qed.

(** C3, at a stack name in which the suffix occurs twice.  The stack
    name [a-deploy-bootstrap-b-deploy-bootstrap], which the program
    builds for the service [a-deploy-bootstrap-b], ends with the suffix;
    the constructor removes the first occurrence, not the trailing one,
    and derives [a-b-deploy-bootstrap]. *)
Theorem serviceName_first_occurrence_removed :
  let stackName := "a-deploy-bootstrap-b-deploy-bootstrap" in
  stackName = interpolate (Some "a-deploy-bootstrap-b") ++ STACK_SUFFIX
  /\ endsWith stackName STACK_SUFFIX = true
  /\ indexOf stackName STACK_SUFFIX = Some 1
  /\ serviceNameOf stackName = "a-b-deploy-bootstrap"
  /\ serviceNameOf stackName
     <> take (String.length stackName - String.length STACK_SUFFIX) stackName
  /\ (forall accountId region,
        exists t,
          app (Some "a-deploy-bootstrap-b") accountId region = Emitted t
          /\ userNameProp (deployUser t) = "a-b-deploy-bootstrap-deployer"
          /\ map parameterName (parameters t)
             = ["/serverless-deploy-bootstrap/a-b-deploy-bootstrap/version"]).
Proof.
  repeat split; try discriminate.
  intros accountId region. eexists; repeat split.
Qed.

(** C10, as the claim has it, fails: for the stack name
    [-deploy-bootstrap] no template is emitted.  The base constructor
    rejects the name, which does not start with a letter, before the
    service name is derived. *)
Lemma suffix_only_stack_name_no_template :
  sanitizeId STACK_SUFFIX = STACK_SUFFIX
  /\ validStackName STACK_SUFFIX = false
  /\ (exists message,
        construct STACK_SUFFIX None "111111111111" "us-east-1"
        = InputError message)
  /\ (forall t,
        construct STACK_SUFFIX None "111111111111" "us-east-1"
        <> Emitted t).
Proof.
  split; [reflexivity|]. split; [reflexivity|]. split.
  - eexists. reflexivity.
  - discriminate.
Qed.

(** C10, as the constructor behaves.  A stack whose name is exactly
    [-deploy-bootstrap] would have the empty service name, for which
    the S3 bucket pattern is [arn:aws:s3:::*]; but the base constructor
    rejects that name, so an error is raised and no template is emitted
    for it.  Every template that is emitted has a non-empty service
    name, and its S3 bucket statement is never scoped to
    [arn:aws:s3:::*]. *)
Theorem suffix_only_stack_name_rejected
    (id : string) (d : option string) (accountId region : string) :
  sanitizeId id = STACK_SUFFIX ->
  (serviceNameOf (sanitizeId id) = ""
   /\ s3BucketResources (serviceNameOf (sanitizeId id)) = ["arn:aws:s3:::*"])
  /\ (exists message, construct id d accountId region = InputError message)
  /\ (forall t, construct id d accountId region <> Emitted t)
  /\ (forall id' d' accountId' region' t',
        construct id' d' accountId' region' = Emitted t' ->
        exists stackName,
          Stack_super id' d' = StackNamed stackName
          /\ stackName <> STACK_SUFFIX
          /\ serviceNameOf stackName <> ""
          /\ userNameProp (deployUser t')
             = serviceNameOf stackName ++ "-deployer"
          /\ nth_error (map resources (rolePolicy (serviceRole t'))) 1
             = Some [Literal ("arn:aws:s3:::" ++ serviceNameOf stackName
                                ++ "*")]
          /\ nth_error (map resources (rolePolicy (serviceRole t'))) 1
             <> Some [Literal "arn:aws:s3:::*"]).
Proof.
  intros Hid.
  assert (Hthrow : exists message,
             construct id d accountId region = InputError message).
  { unfold construct, Stack_super. rewrite Hid.
    destruct (descriptionTooLong d); eexists; reflexivity. }
  split; [rewrite Hid; split; reflexivity|].
  split; [exact Hthrow|]. split.
  - intros t E. destruct Hthrow as [message Hm].
    rewrite Hm in E. discriminate E.
  - intros id' d' accountId' region' t' E.
    apply construct_Emitted_inv in E as [stackName [Hs ->]].
    pose proof (accepted_serviceName_not_empty _ _ _ Hs) as Hne.
    exists stackName. split; [exact Hs|]. split; [|split; [exact Hne|]].
    + intros ->. apply Hne. reflexivity.
    + split; [reflexivity|]. split; [reflexivity|].
      cbn [nth_error map rolePolicy serviceRole].
      intros E. change (nth_error
        (map resources
           (rolePolicy
              (serviceRole
                 (ServiceDeployBootstrap stackName d' accountId' region'))))
        1) with (Some [Literal ("arn:aws:s3:::" ++ serviceNameOf stackName
                                  ++ "*")]) in E.
      cbn in E. injection E as E. apply Hne.
      destruct (serviceNameOf stackName) as [|c n]; [reflexivity|].
      cbn in E. injection E as _ E. destruct n; discriminate E.
Qed.

Lemma suffix_only_stack_name_rejected_witness :
  sanitizeId STACK_SUFFIX = STACK_SUFFIX
  /\ (exists message,
        construct STACK_SUFFIX None "111111111111" "us-east-1"
        = InputError message)
  /\ (forall t,
        construct STACK_SUFFIX None "111111111111" "us-east-1"
        <> Emitted t).
Proof.
  split; [reflexivity|].
  destruct (suffix_only_stack_name_rejected STACK_SUFFIX None
              "111111111111" "us-east-1" eq_refl) as [_ [H1 [H2 _]]].
  split; [exact H1 | exact H2].
Defined.

(** C7. For a non-empty service name, each of the eight patterns is a
    fixed head, then the service name, then the wildcard: the name is
    the prefix of the resource name in the CloudFormation, S3 bucket, S3
    object, log-group, Lambda, state-machine and IAM patterns, and
    stands before [*deploymentbucket*] in the deployment-bucket pattern.
    Every literal resource of every statement of the template contains
    the service name, the unscoped [*] of the template-validation
    statement apart; and the statements of the role and of the group
    carry exactly these patterns, with the service name in that
    position. *)
Theorem patterns_contain_service_name
    (stackName : string) (d : option string) (accountId region : string) :
  serviceNameOf stackName <> "" ->
  let n := serviceNameOf stackName in
  let t := ServiceDeployBootstrap stackName d accountId region in
  (cloudFormationResources n accountId region
     = [("arn:aws:cloudformation:" ++ region ++ ":" ++ accountId ++ ":stack/")
          ++ n ++ "*"]
   /\ s3BucketResources n = ["arn:aws:s3:::" ++ n ++ "*"]
   /\ s3ObjectResources n = ["arn:aws:s3:::" ++ n ++ "*/*"]
   /\ cloudWatchResources n accountId region
      = [("arn:aws:logs:" ++ region ++ ":" ++ accountId
            ++ ":log-group:/aws/lambda/") ++ n ++ "*"]
   /\ lambdaResources n accountId region
      = [("arn:aws:lambda:" ++ region ++ ":" ++ accountId ++ ":function:")
           ++ n ++ "*"]
   /\ stepFunctionResources n accountId region
      = [("arn:aws:states:" ++ region ++ ":" ++ accountId
            ++ ":stateMachine:") ++ n ++ "*"]
   /\ iamResources n accountId
      = [("arn:aws:iam::" ++ accountId ++ ":role/") ++ n ++ "*"]
   /\ s3DeploymentResources n
      = ["arn:aws:s3:::" ++ n ++ "*deploymentbucket*"])
  /\ Forall (fun p => includes p n = true)
       (cloudFormationResources n accountId region
        ++ s3BucketResources n ++ s3ObjectResources n
        ++ cloudWatchResources n accountId region
        ++ lambdaResources n accountId region
        ++ stepFunctionResources n accountId region
        ++ iamResources n accountId ++ s3DeploymentResources n)%list
  /\ (forall st p,
        In st (allStatements t) -> In (Literal p) (resources st) ->
        includes p n = true
        \/ (p = "*" /\ actions st = ["cloudformation:ValidateTemplate"]))
  /\ map resources (rolePolicy (serviceRole t))
     = [ [Literal ("arn:aws:s3:::" ++ n ++ "*/*")];
         [Literal ("arn:aws:s3:::" ++ n ++ "*")];
         [Literal ("arn:aws:logs:" ++ region ++ ":" ++ accountId
                     ++ ":log-group:/aws/lambda/" ++ n ++ "*")];
         [Literal ("arn:aws:lambda:" ++ region ++ ":" ++ accountId
                     ++ ":function:" ++ n ++ "*")];
         [Literal ("arn:aws:iam::" ++ accountId ++ ":role/" ++ n ++ "*")];
         [Literal ("arn:aws:states:" ++ region ++ ":" ++ accountId
                     ++ ":stateMachine:" ++ n ++ "*")];
         [Literal ("arn:aws:states:" ++ region ++ ":" ++ accountId
                     ++ ":stateMachine:" ++ n ++ "*")] ]
  /\ map resources (groupPolicy (deployGroup t))
     = [ [Literal "*"];
         [Literal ("arn:aws:cloudformation:" ++ region ++ ":" ++ accountId
                     ++ ":stack/" ++ n ++ "*")];
         [Literal ("arn:aws:lambda:" ++ region ++ ":" ++ accountId
                     ++ ":function:" ++ n ++ "*")];
         [roleArn (serviceRole t)];
         [Literal ("arn:aws:s3:::" ++ n ++ "*deploymentbucket*")] ].
Proof.
  intros _ n t. split; [|split; [|split; [|split; reflexivity]]].
  - unfold cloudFormationResources, cloudWatchResources, lambdaResources,
      stepFunctionResources, iamResources.
    rewrite !append_assoc. repeat split.
  - repeat constructor; includes_service_name.
  - intros st p Hst Hp. unfold allStatements in Hst.
    subst t. rewrite rolePolicy_eq, groupPolicy_eq in Hst. fold n in Hst.
    repeat (destruct Hst as [<- | Hst]);
      try contradiction;
      destruct Hp as [Hp | []];
      try discriminate Hp;
      injection Hp as <-;
      first [ right; split; reflexivity
            | left; includes_service_name ].
Qed.

Lemma patterns_contain_service_name_witness :
  serviceNameOf "orders-api-deploy-bootstrap" <> ""
  /\ Forall (fun p => includes p "orders-api" = true)
       [ "arn:aws:cloudformation:us-east-1:111111111111:stack/orders-api*";
         "arn:aws:s3:::orders-api*";
         "arn:aws:s3:::orders-api*/*";
         "arn:aws:logs:us-east-1:111111111111:log-group:/aws/lambda/orders-api*";
         "arn:aws:lambda:us-east-1:111111111111:function:orders-api*";
         "arn:aws:states:us-east-1:111111111111:stateMachine:orders-api*";
         "arn:aws:iam::111111111111:role/orders-api*";
         "arn:aws:s3:::orders-api*deploymentbucket*" ].
Proof.
  assert (Hne : serviceNameOf "orders-api-deploy-bootstrap" <> "")
    by discriminate.
  split; [exact Hne|].
  exact (proj1 (proj2
    (patterns_contain_service_name "orders-api-deploy-bootstrap" None
       "111111111111" "us-east-1" Hne))).
Defined.

(** ** Further facts about the string primitives *)

Module MoreStringFacts.

Lemma length_drop_le (n : nat) (s : string) :
  String.length (drop n s) <= String.length s.
Proof.
  revert s; induction n as [|n IH]; intros [|c s]; simpl; auto.
Qed.

Lemma length_take_drop (n : nat) (s : string) :
  String.length (take n s) + String.length (drop n s) = String.length s.
Proof. now rewrite <- length_append, take_drop. Qed.

(** Appending on the right can be undone. *)
Lemma append_inj_r (a b c : string) : a ++ c = b ++ c -> a = b.
Proof.
  revert b; induction a as [|x a IH]; intros [|y b] H.
  - reflexivity.
  - apply (f_equal String.length) in H.
    simpl in H. rewrite length_append in H. lia.
  - apply (f_equal String.length) in H.
    simpl in H. rewrite length_append in H. lia.
  - simpl in H. injection H as -> H. f_equal. now apply IH.
Qed.

Lemma append_inj_l (a b c : string) : a ++ b = a ++ c -> b = c.
Proof.
  induction a as [|x a IH]; simpl; intros H; [exact H|].
  injection H as H. now apply IH.
Qed.

Lemma startsWith_append_r (x y pat : string) :
  startsWith x pat = true -> startsWith (x ++ y) pat = true.
Proof.
  intros H. apply startsWith_inv in H as [q ->].
  rewrite append_assoc. apply startsWith_append.
Qed.

(** What a string includes, its extensions include. *)
Lemma includes_append_r (x y pat : string) :
  includes x pat = true -> includes (x ++ y) pat = true.
Proof.
  unfold includes. induction x as [|c x IH].
  - rewrite indexOf_nil.
    destruct (startsWith "" pat) eqn:E; [|discriminate].
    intros _. rewrite (startsWith_nil _ E).
    now rewrite (indexOf_here "" y).
  - rewrite indexOf_cons.
    change (String c x ++ y) with (String c (x ++ y)).
    rewrite indexOf_cons.
    change (String c (x ++ y)) with (String c x ++ y).
    destruct (startsWith (String c x) pat) eqn:E.
    + intros _. now rewrite (startsWith_append_r _ y _ E).
    + destruct (startsWith (String c x ++ y) pat); [reflexivity|].
      destruct (indexOf x pat); [|discriminate].
      intros _. specialize (IH eq_refl).
      now destruct (indexOf (x ++ y) pat).
Qed.

Lemma includes_append_free (x y pat : string) :
  includes (x ++ y) pat = false -> includes x pat = false.
Proof.
  intros H. destruct (includes x pat) eqn:E; [|reflexivity].
  now rewrite (includes_append_r _ y _ E) in H.
Qed.

(** [endsWith] looks at the end only. *)
Lemma endsWith_append_l (x y suffix : string) :
  endsWith y suffix = true -> endsWith (x ++ y) suffix = true.
Proof.
  intros H. apply endsWith_inv in H as [p ->].
  rewrite <- append_assoc. apply endsWith_append.
Qed.

Lemma endsWith_String (c : ascii) (y suffix : string) :
  endsWith y suffix = true -> endsWith (String c y) suffix = true.
Proof. apply (endsWith_append_l (String c "")). Qed.

(** A border-free pattern put after a string without it occurs first
    where it was put, whatever follows. *)
Lemma indexOf_insert_border_free (x z pat : string) :
  border_free pat = true ->
  includes x pat = false ->
  indexOf (x ++ pat ++ z) pat = Some (String.length x).
Proof.
  intros Hb. unfold includes.
  induction x as [|c x IH]; intros Hx.
  - exact (indexOf_here pat z).
  - rewrite indexOf_cons in Hx.
    destruct (startsWith (String c x) pat) eqn:E; [discriminate|].
    destruct (indexOf x pat) eqn:Ei; [discriminate|].
    change (String c x ++ pat ++ z) with (String c (x ++ pat ++ z)).
    rewrite indexOf_cons.
    change (String c (x ++ pat ++ z)) with (String c x ++ pat ++ z).
    destruct (startsWith (String c x ++ pat ++ z) pat) eqn:E'.
    + exfalso.
      destruct (le_lt_dec (String.length pat) (String.length (String c x)))
        as [Hle|Hlt].
      * rewrite startsWith_append_long in E' by exact Hle. congruence.
      * apply startsWith_append_short in E'; [|lia].
        rewrite startsWith_append_long in E' by apply length_drop_le.
        unfold border_free in Hb. rewrite forallb_forall in Hb.
        specialize (Hb (String.length (String c x))).
        rewrite E' in Hb.
        assert (false = true); [|discriminate].
        apply Hb. apply in_seq. simpl in *. lia.
    + rewrite IH by reflexivity. reflexivity.
Qed.

Lemma replace_insert_border_free (x z pat : string) :
  border_free pat = true ->
  includes x pat = false ->
  replace (x ++ pat ++ z) pat "" = x ++ z.
Proof.
  intros Hb Hx. unfold replace.
  rewrite indexOf_insert_border_free by assumption.
  rewrite take_append, drop_append, drop_append_exact. reflexivity.
Qed.

(** Removing an occurrence shortens by the pattern's length. *)
Lemma length_replace_empty (s pat : string) :
  String.length (replace s pat "") =
  if includes s pat then String.length s - String.length pat
  else String.length s.
Proof.
  unfold replace, includes.
  destruct (indexOf s pat) as [i|] eqn:E; [|reflexivity].
  apply indexOf_occurrence in E.
  rewrite E at 3. simpl append.
  rewrite !length_append. lia.
Qed.

End MoreStringFacts.

Import MoreStringFacts.

(** ** Further properties of the stack *)

(** The constructor reads the stack name through the service name
    only. *)
Lemma ServiceDeployBootstrap_ext
    (stackName1 stackName2 : string) (d : option string)
    (accountId region : string) :
  serviceNameOf stackName1 = serviceNameOf stackName2 ->
  ServiceDeployBootstrap stackName1 d accountId region
  = ServiceDeployBootstrap stackName2 d accountId region.
Proof. intros H. unfold ServiceDeployBootstrap. now rewrite H. Qed.

(** The suffix is removed where it first occurs: after a part without
    it, whatever follows. *)
Lemma serviceNameOf_insert (x z : string) :
  includes x STACK_SUFFIX = false ->
  serviceNameOf (x ++ STACK_SUFFIX ++ z) = x ++ z.
Proof.
  intros H. unfold serviceNameOf.
  now apply replace_insert_border_free; [apply STACK_SUFFIX_border_free|].
Qed.

Lemma includes_own_suffix (name : string) :
  includes (name ++ STACK_SUFFIX) STACK_SUFFIX = true.
Proof.
  apply includes_append_l.
  rewrite <- (append_nil_r STACK_SUFFIX) at 1. apply includes_here.
Qed.

(** The suffix commutes with no string that is free of it, the empty
    one apart. *)
Lemma suffix_does_not_commute (y : string) :
  includes y STACK_SUFFIX = false -> y <> "" ->
  STACK_SUFFIX ++ y <> y ++ STACK_SUFFIX.
Proof.
  intros Hy Hne Heq.
  pose proof (startsWith_append STACK_SUFFIX y) as Hs.
  rewrite Heq in Hs.
  destruct (le_lt_dec (String.length STACK_SUFFIX) (String.length y))
    as [Hle|Hlt].
  - rewrite startsWith_append_long in Hs by exact Hle.
    apply startsWith_inv in Hs as [q ->].
    now rewrite includes_here in Hy.
  - apply startsWith_append_short in Hs; [|lia].
    pose proof STACK_SUFFIX_border_free as Hb.
    unfold border_free in Hb. rewrite forallb_forall in Hb.
    specialize (Hb (String.length y)). rewrite Hs in Hb.
    assert (false = true); [|discriminate].
    apply Hb. apply in_seq.
    destruct y; [congruence | simpl in *; lia].
Qed.

(** Rewriting [/] goes through concatenation and leaves the suffix as
    it is. *)
Lemma sanitizeId_append (a b : string) :
  sanitizeId (a ++ b) = sanitizeId a ++ sanitizeId b.
Proof.
  induction a as [|c a IH]; [reflexivity|].
  simpl. destruct (Ascii.eqb c "/"); simpl; now rewrite IH.
Qed.

(** What the program does with a [SERVICE_NAME] whose stack id the base
    constructor accepts as it is. *)
Lemma app_accepted (name accountId region : string) :
  Stack_super (name ++ STACK_SUFFIX) appDescription
  = StackNamed (name ++ STACK_SUFFIX) ->
  app (Some name) accountId region
  = Emitted (ServiceDeployBootstrap (name ++ STACK_SUFFIX) appDescription
               accountId region).
Proof. intros H. unfold app, interpolate. now apply construct_accepted. Qed.

(** X1. For a [SERVICE_NAME] that does not contain [-deploy-bootstrap]
    and whose stack id the base constructor accepts as the name of the
    stack, the program recovers that very name from the stack name: the
    deploy user, the deploy group, the version parameter and the
    patterns of the service role all carry [SERVICE_NAME] itself. *)
Theorem app_recovers_service_name (name accountId region : string) :
  Stack_super (name ++ STACK_SUFFIX) appDescription
  = StackNamed (name ++ STACK_SUFFIX) ->
  includes name STACK_SUFFIX = false ->
  exists t,
    app (Some name) accountId region = Emitted t
    /\ userNameProp (deployUser t) = name ++ "-deployer"
    /\ groupId (deployGroup t) = name ++ "-deployers"
    /\ map parameterName (parameters t)
       = ["/serverless-deploy-bootstrap/" ++ name ++ "/version"]
    /\ map resources (rolePolicy (serviceRole t))
       = [ map Literal (s3ObjectResources name);
           map Literal (s3BucketResources name);
           map Literal (cloudWatchResources name accountId region);
           map Literal (lambdaResources name accountId region);
           map Literal (iamResources name accountId);
           map Literal (stepFunctionResources name accountId region);
           map Literal (stepFunctionResources name accountId region) ]
    /\ map resources (groupPolicy (deployGroup t))
       = [ [Literal "*"];
           map Literal (cloudFormationResources name accountId region);
           map Literal (lambdaResources name accountId region);
           [roleArn (serviceRole t)];
           map Literal (s3DeploymentResources name) ].
Proof.
  intros Hs H. rewrite (app_accepted _ _ _ Hs).
  eexists. split; [reflexivity|].
  unfold ServiceDeployBootstrap.
  rewrite (serviceNameOf_append_suffix name H).
  repeat split.
Qed.

Lemma app_recovers_service_name_witness :
  Stack_super ("orders-api" ++ STACK_SUFFIX) appDescription
  = StackNamed ("orders-api" ++ STACK_SUFFIX)
  /\ includes "orders-api" STACK_SUFFIX = false
  /\ exists t,
       app (Some "orders-api") "111111111111" "us-east-1" = Emitted t
       /\ userNameProp (deployUser t) = "orders-api-deployer"
       /\ groupId (deployGroup t) = "orders-api-deployers".
Proof.
  split; [reflexivity|]. split; [reflexivity|].
  destruct (app_recovers_service_name "orders-api" "111111111111"
              "us-east-1" eq_refl eq_refl) as [t [Ht [Hu [Hg _]]]].
  exists t. split; [exact Ht|]. split; [exact Hu | exact Hg].
Defined.

(** X2. With [SERVICE_NAME] unset the program raises nothing: the
    template literal turns the missing value into the text
    [undefined], and the stack is the one of a service of that name. *)
Theorem app_unset_service_name (accountId region : string) :
  app None accountId region = app (Some "undefined") accountId region
  /\ exists t,
       app None accountId region = Emitted t
       /\ userNameProp (deployUser t) = "undefined-deployer"
       /\ groupId (deployGroup t) = "undefined-deployers"
       /\ map parameterName (parameters t)
          = ["/serverless-deploy-bootstrap/undefined/version"]
       /\ map resources (firstn 2 (rolePolicy (serviceRole t)))
          = [ [Literal "arn:aws:s3:::undefined*/*"];
              [Literal "arn:aws:s3:::undefined*"] ].
Proof.
  split; [reflexivity|]. eexists; repeat split.
Qed.

(** X3. The constructor removes the suffix at its first occurrence,
    whatever follows it: a stack name made of a part without the
    suffix, the suffix, and any rest has that part followed by the rest
    as its service name. *)
Theorem serviceName_removes_leftmost (x z : string) :
  includes x STACK_SUFFIX = false ->
  indexOf (x ++ STACK_SUFFIX ++ z) STACK_SUFFIX = Some (String.length x)
  /\ serviceNameOf (x ++ STACK_SUFFIX ++ z) = x ++ z
  /\ (forall d accountId region,
        userNameProp
          (deployUser
             (ServiceDeployBootstrap (x ++ STACK_SUFFIX ++ z) d
                accountId region))
        = (x ++ z) ++ "-deployer").
Proof.
  intros H. split; [|split].
  - apply indexOf_insert_border_free;
      [apply STACK_SUFFIX_border_free | exact H].
  - now apply serviceNameOf_insert.
  - intros d accountId region. unfold ServiceDeployBootstrap.
    now rewrite serviceNameOf_insert.
Qed.

Lemma serviceName_removes_leftmost_witness :
  includes "a" STACK_SUFFIX = false
  /\ serviceNameOf ("a" ++ STACK_SUFFIX ++ "-b-deploy-bootstrap")
     = "a" ++ "-b-deploy-bootstrap".
Proof.
  split; [reflexivity|].
  exact (proj1 (proj2
    (serviceName_removes_leftmost "a" "-b-deploy-bootstrap" eq_refl))).
Defined.

(** X4. The constructor removes at most one occurrence of the suffix:
    the service name is shorter than the stack name by the length of
    the suffix when the stack name contains it, and as long otherwise.
    The stack the program asks for is named by [SERVICE_NAME] with each
    [/] rewritten to [--], followed by the suffix; its service name has
    the length of that rewritten name, and is never the stack name
    itself; so the user name of an emitted template is 9 characters
    longer than the rewritten [SERVICE_NAME]. *)
Theorem serviceNameOf_length (stackName : string) :
  String.length (serviceNameOf stackName)
  = (if includes stackName STACK_SUFFIX
     then String.length stackName - 17
     else String.length stackName)
  /\ (forall env,
        sanitizeId (interpolate env ++ STACK_SUFFIX)
        = sanitizeId (interpolate env) ++ STACK_SUFFIX
        /\ String.length
             (serviceNameOf (sanitizeId (interpolate env ++ STACK_SUFFIX)))
           = String.length (sanitizeId (interpolate env))
        /\ serviceNameOf (sanitizeId (interpolate env ++ STACK_SUFFIX))
           <> sanitizeId (interpolate env ++ STACK_SUFFIX))
  /\ (forall env accountId region t,
        app env accountId region = Emitted t ->
        String.length (userNameProp (deployUser t))
        = String.length (sanitizeId (interpolate env)) + 9).
Proof.
  assert (A : forall env,
             sanitizeId (interpolate env ++ STACK_SUFFIX)
             = sanitizeId (interpolate env) ++ STACK_SUFFIX).
  { intros env. now rewrite sanitizeId_append. }
  assert (L : forall env,
             String.length
               (serviceNameOf (sanitizeId (interpolate env ++ STACK_SUFFIX)))
             = String.length (sanitizeId (interpolate env))).
  { intros env. rewrite A. unfold serviceNameOf.
    rewrite length_replace_empty.
    rewrite includes_own_suffix, length_append. simpl. lia. }
  split; [|split].
  - unfold serviceNameOf. apply length_replace_empty.
  - intros env. split; [apply A|]. split; [apply L|].
    intros E. specialize (L env). rewrite E, A, length_append in L.
    simpl in L. lia.
  - intros env accountId region t E. unfold app in E.
    apply construct_Emitted_inv in E as [name [Hs ->]].
    apply Stack_super_inv in Hs as [-> _].
    change (userNameProp
              (deployUser
                 (ServiceDeployBootstrap
                    (sanitizeId (interpolate env ++ STACK_SUFFIX))
                    appDescription accountId region)))
      with (serviceNameOf (sanitizeId (interpolate env ++ STACK_SUFFIX))
              ++ "-deployer").
    rewrite length_append, L. reflexivity.
Qed.

(** X5. Two different service names that do not contain the suffix,
    and whose stack ids the base constructor accepts as the names of
    the stacks, get different deploy users, different deploy groups and
    different version parameters, in whatever accounts and regions, and
    the program emits different templates for them. *)
Theorem distinct_services_distinct_templates
    (name1 name2 accountId1 region1 accountId2 region2 : string) :
  Stack_super (name1 ++ STACK_SUFFIX) appDescription
  = StackNamed (name1 ++ STACK_SUFFIX) ->
  Stack_super (name2 ++ STACK_SUFFIX) appDescription
  = StackNamed (name2 ++ STACK_SUFFIX) ->
  includes name1 STACK_SUFFIX = false ->
  includes name2 STACK_SUFFIX = false ->
  name1 <> name2 ->
  exists t1 t2,
    app (Some name1) accountId1 region1 = Emitted t1
    /\ app (Some name2) accountId2 region2 = Emitted t2
    /\ userNameProp (deployUser t1) <> userNameProp (deployUser t2)
    /\ groupId (deployGroup t1) <> groupId (deployGroup t2)
    /\ map parameterName (parameters t1) <> map parameterName (parameters t2)
    /\ app (Some name1) accountId1 region1
       <> app (Some name2) accountId2 region2.
Proof.
  intros Hs1 Hs2 H1 H2 Hne.
  rewrite (app_accepted _ accountId1 region1 Hs1).
  rewrite (app_accepted _ accountId2 region2 Hs2).
  eexists. eexists. split; [reflexivity|]. split; [reflexivity|].
  assert (U : userNameProp
                (deployUser
                   (ServiceDeployBootstrap (name1 ++ STACK_SUFFIX)
                      appDescription accountId1 region1))
              <> userNameProp
                   (deployUser
                      (ServiceDeployBootstrap (name2 ++ STACK_SUFFIX)
                         appDescription accountId2 region2))).
  { unfold ServiceDeployBootstrap.
    rewrite !serviceNameOf_append_suffix by assumption.
    simpl. intros E. apply append_inj_r in E. contradiction. }
  split; [exact U|]. split; [|split].
  - unfold ServiceDeployBootstrap.
    rewrite !serviceNameOf_append_suffix by assumption.
    simpl. intros E. apply append_inj_r in E. contradiction.
  - unfold ServiceDeployBootstrap.
    rewrite !serviceNameOf_append_suffix by assumption.
    simpl. unfold versionParameterName. intros E.
    injection E as E. apply append_inj_r in E. contradiction.
  - intros E. apply U.
    apply (f_equal (fun o => match o with
                             | Emitted t => userNameProp (deployUser t)
                             | InputError _ => ""
                             end)) in E.
    exact E.
Qed.

Lemma distinct_services_distinct_templates_witness :
  Stack_super ("orders-api" ++ STACK_SUFFIX) appDescription
  = StackNamed ("orders-api" ++ STACK_SUFFIX)
  /\ Stack_super ("billing" ++ STACK_SUFFIX) appDescription
     = StackNamed ("billing" ++ STACK_SUFFIX)
  /\ includes "orders-api" STACK_SUFFIX = false
  /\ includes "billing" STACK_SUFFIX = false
  /\ "orders-api" <> "billing"
  /\ app (Some "orders-api") "111111111111" "us-east-1"
     <> app (Some "billing") "111111111111" "us-east-1".
Proof.
  assert (Hne : "orders-api" <> "billing") by discriminate.
  split; [reflexivity|]. split; [reflexivity|].
  split; [reflexivity|]. split; [reflexivity|]. split; [exact Hne|].
  destruct (distinct_services_distinct_templates "orders-api" "billing"
              "111111111111" "us-east-1" "111111111111" "us-east-1"
              eq_refl eq_refl eq_refl eq_refl Hne)
    as [t1 [t2 [_ [_ [_ [_ [_ H]]]]]]].
  exact H.
Defined.

(** X6. Service names that contain the suffix can collide.  Take a part
    [x] and a non-empty part [y] with no suffix in [x ++ y], such that
    the base constructor accepts the stack ids of the two names
    [x ++ "-deploy-bootstrap" ++ y] and [x ++ y ++ "-deploy-bootstrap"]
    as the names of the stacks.  The two names differ, both get the
    service name [x ++ y ++ "-deploy-bootstrap"], and the program emits
    one and the same template for both. *)
Theorem service_names_with_suffix_collide
    (x y accountId region : string) :
  let name1 := x ++ STACK_SUFFIX ++ y in
  let name2 := x ++ y ++ STACK_SUFFIX in
  Stack_super (name1 ++ STACK_SUFFIX) appDescription
  = StackNamed (name1 ++ STACK_SUFFIX) ->
  Stack_super (name2 ++ STACK_SUFFIX) appDescription
  = StackNamed (name2 ++ STACK_SUFFIX) ->
  includes (x ++ y) STACK_SUFFIX = false ->
  y <> "" ->
  name1 <> name2
  /\ serviceNameOf (name1 ++ STACK_SUFFIX) = x ++ y ++ STACK_SUFFIX
  /\ serviceNameOf (name2 ++ STACK_SUFFIX) = x ++ y ++ STACK_SUFFIX
  /\ exists t,
       app (Some name1) accountId region = Emitted t
       /\ app (Some name2) accountId region = Emitted t.
Proof.
  intros name1 name2 Hs1 Hs2 Hxy Hy.
  assert (Hx : includes x STACK_SUFFIX = false)
    by exact (includes_append_free _ _ _ Hxy).
  assert (Hy' : includes y STACK_SUFFIX = false).
  { destruct (includes y STACK_SUFFIX) eqn:E; [|reflexivity].
    now rewrite (includes_append_l x y _ E) in Hxy. }
  assert (E1 : serviceNameOf (name1 ++ STACK_SUFFIX)
               = x ++ y ++ STACK_SUFFIX).
  { subst name1. rewrite !append_assoc. now apply serviceNameOf_insert. }
  assert (E2 : serviceNameOf (name2 ++ STACK_SUFFIX)
               = x ++ y ++ STACK_SUFFIX).
  { subst name2. rewrite <- (append_assoc x y STACK_SUFFIX).
    rewrite (append_assoc (x ++ y)).
    rewrite serviceNameOf_insert by exact Hxy.
    reflexivity. }
  split; [|split; [exact E1|split; [exact E2|]]].
  - subst name1 name2. intros E. apply append_inj_l in E.
    now apply (suffix_does_not_commute y).
  - rewrite (app_accepted _ accountId region Hs1).
    rewrite (app_accepted _ accountId region Hs2).
    eexists. split; [reflexivity|]. f_equal.
    apply ServiceDeployBootstrap_ext. now rewrite E1, E2.
Qed.

Lemma service_names_with_suffix_collide_witness :
  Stack_super (("a" ++ STACK_SUFFIX ++ "-b") ++ STACK_SUFFIX) appDescription
  = StackNamed (("a" ++ STACK_SUFFIX ++ "-b") ++ STACK_SUFFIX)
  /\ Stack_super (("a" ++ "-b" ++ STACK_SUFFIX) ++ STACK_SUFFIX)
       appDescription
     = StackNamed (("a" ++ "-b" ++ STACK_SUFFIX) ++ STACK_SUFFIX)
  /\ includes ("a" ++ "-b") STACK_SUFFIX = false
  /\ "-b" <> ""
  /\ "a-deploy-bootstrap-b" <> "a-b-deploy-bootstrap"
  /\ exists t,
       app (Some "a-deploy-bootstrap-b") "111111111111" "us-east-1"
       = Emitted t
       /\ app (Some "a-b-deploy-bootstrap") "111111111111" "us-east-1"
          = Emitted t.
Proof.
  assert (Hne : "-b" <> "") by discriminate.
  split; [reflexivity|]. split; [reflexivity|].
  split; [reflexivity|]. split; [exact Hne|].
  destruct (service_names_with_suffix_collide "a" "-b" "111111111111"
              "us-east-1" eq_refl eq_refl eq_refl Hne) as [H1 [_ [_ H4]]].
  split; [exact H1 | exact H4].
Defined.

(** Closes a goal [endsWith p "*" = true] for a pattern [p] built by
    appending, whose last part is a literal. *)
Ltac ends_with_wildcard :=
  repeat first
    [ reflexivity | apply endsWith_String | apply endsWith_append_l ].

(** X7. The deploy user is put in one group and no other: the deploy
    group of the same stack, joined once its five statements are
    attached.  The name given to the user and the construct id given to
    the group are the service name followed by [-deployer] and
    [-deployers], and are never the same string. *)
Theorem deployUser_member_of_deployGroup_only
    (stackName : string) (d : option string) (accountId region : string) :
  let t := ServiceDeployBootstrap stackName d accountId region in
  userGroups (deployUser t) = [groupId (deployGroup t)]
  /\ List.length (groupPolicy (deployGroup t)) = 5
  /\ userNameProp (deployUser t) = serviceNameOf stackName ++ "-deployer"
  /\ groupId (deployGroup t) = serviceNameOf stackName ++ "-deployers"
  /\ userNameProp (deployUser t) <> groupId (deployGroup t).
Proof.
  intros t. repeat split.
  subst t. unfold ServiceDeployBootstrap. simpl.
  intros E. apply append_inj_l in E. discriminate E.
Qed.

(** X8. The three outputs do not depend on the stack name, the account
    or the region: their ids, their values (references to the user and
    to the role, and the version) and their export names are the same
    for every stack, the export names being [DeployRoleArn] and
    [BootstrapVersion], while the user output has none.  The role
    output exports the very reference the pass-role statement is scoped
    to. *)
Theorem outputs_independent_of_inputs
    (stackName1 stackName2 : string) (d1 d2 : option string)
    (accountId1 region1 accountId2 region2 : string) :
  let t1 := ServiceDeployBootstrap stackName1 d1 accountId1 region1 in
  let t2 := ServiceDeployBootstrap stackName2 d2 accountId2 region2 in
  outputs t1 = outputs t2
  /\ map outputId (outputs t1)
     = ["DeployUserName"; "DeployRoleArn"; "BootstrapVersion"]
  /\ map exportName (outputs t1)
     = [None; Some "DeployRoleArn"; Some "BootstrapVersion"]
  /\ map outputValue (outputs t1)
     = [userName (deployUser t1); roleArn (serviceRole t1); Literal version]
  /\ (exists o st,
        findOutput "DeployRoleArn" t1 = Some o
        /\ nth_error (groupPolicy (deployGroup t1)) 3 = Some st
        /\ resources st = [outputValue o]).
Proof.
  intros t1 t2. repeat split.
  eexists. eexists. repeat split.
Qed.


(** X10. Whatever the input, a literal resource of a statement is either
    the lone [*] or an ARN pattern: it starts with [arn:aws:] and ends
    with the wildcard [*], also when the service name, the account or
    the region is empty. *)
Theorem literal_resources_are_arn_wildcards
    (stackName : string) (d : option string) (accountId region : string) :
  let t := ServiceDeployBootstrap stackName d accountId region in
  forall st p,
    In st (allStatements t) -> In (Literal p) (resources st) ->
    p = "*"
    \/ (startsWith p "arn:aws:" = true /\ endsWith p "*" = true).
Proof.
  intros t st p Hst Hp. unfold allStatements in Hst. subst t.
  rewrite rolePolicy_eq, groupPolicy_eq in Hst.
  repeat (destruct Hst as [<- | Hst]); try contradiction;
    destruct Hp as [Hp | []];
    try discriminate Hp;
    injection Hp as <-;
    first [ left; reflexivity
          | right; split; [reflexivity | ends_with_wildcard] ].
Qed.

Lemma literal_resources_are_arn_wildcards_witness :
  let t := ServiceDeployBootstrap "orders-api-deploy-bootstrap" None
             "111111111111" "us-east-1" in
  let st := allow (s3ObjectResources "orders-api") s3ObjectActions in
  In st (allStatements t)
  /\ In (Literal "arn:aws:s3:::orders-api*/*") (resources st)
  /\ ("arn:aws:s3:::orders-api*/*" = "*"
      \/ (startsWith "arn:aws:s3:::orders-api*/*" "arn:aws:" = true
          /\ endsWith "arn:aws:s3:::orders-api*/*" "*" = true)).
Proof.
  intros t st.
  assert (Hst : In st (allStatements t)) by (left; reflexivity).
  assert (Hp : In (Literal "arn:aws:s3:::orders-api*/*") (resources st))
    by (left; reflexivity).
  split; [exact Hst|]. split; [exact Hp|].
  exact (literal_resources_are_arn_wildcards
           "orders-api-deploy-bootstrap" None "111111111111" "us-east-1"
           st "arn:aws:s3:::orders-api*/*" Hst Hp).
Defined.

(** Before the place [indexOf] finds, a non-empty pattern does not
    occur. *)
Lemma includes_take_indexOf (s pat : string) (i : nat) :
  pat <> "" ->
  indexOf s pat = Some i ->
  includes (take i s) pat = false.
Proof.
  intros Hpat. unfold includes.
  assert (Hnil : indexOf "" pat = None).
  { rewrite indexOf_nil. destruct pat; [congruence | reflexivity]. }
  revert i; induction s as [|c s IH]; intros i.
  - rewrite Hnil. discriminate.
  - rewrite indexOf_cons.
    destruct (startsWith (String c s) pat) eqn:E.
    + intros [= <-]. simpl take. now rewrite Hnil.
    + destruct (indexOf s pat) as [j|] eqn:Ej; [|discriminate].
      intros [= <-]. simpl take. rewrite indexOf_cons.
      destruct (startsWith (String c (take j s)) pat) eqn:E'.
      * apply (startsWith_append_r _ (drop j s)) in E'.
        simpl in E'. rewrite take_drop in E'. congruence.
      * specialize (IH j eq_refl).
        now destruct (indexOf (take j s) pat).
Qed.

(** X11. What the constructor derives from any stack name: a stack name
    without the suffix is its own service name; any other splits into a
    part without the suffix, the suffix, and a rest, and its service
    name is that part followed by that rest. *)
Theorem serviceNameOf_decomposition (stackName : string) :
  (includes stackName STACK_SUFFIX = false
   /\ serviceNameOf stackName = stackName)
  \/ (exists x z,
        stackName = x ++ STACK_SUFFIX ++ z
        /\ includes x STACK_SUFFIX = false
        /\ serviceNameOf stackName = x ++ z).
Proof.
  destruct (includes stackName STACK_SUFFIX) eqn:Hinc.
  - right. unfold includes in Hinc. unfold serviceNameOf, replace.
    destruct (indexOf stackName STACK_SUFFIX) as [i|] eqn:Ei;
      [|discriminate].
    exists (take i stackName),
           (drop (i + String.length STACK_SUFFIX) stackName).
    split; [now apply indexOf_occurrence|].
    split; [|reflexivity].
    apply includes_take_indexOf; [discriminate | exact Ei].
  - left. split; [reflexivity|]. now apply serviceNameOf_absent.
Qed.
